(** * productivity_bot.inbound_message_helpers

    A shallow embedding of
    [productivity_tracker/productivity_bot/inbound_message_helpers.py]:
    the dispatcher [handle_inbound_message] and the session operations
    [start_active_loop], [end_active_loop], [in_active_loop] and
    [log_user_response], over an explicit model of the Django tables the
    module reads and writes.

    Python strings are [string]s whose characters are read as the code
    points 0..255; the built-in string operations follow Python 3 [str]
    on that range.  Python integers are [Z]; the width of the integer
    columns and the failures of the store itself are outside the model
    (spec, section 7). *)

From Stdlib Require Import String Ascii List ZArith NArith Bool Lia.
Import ListNotations.
Open Scope string_scope.

(** ** Exceptions the module can let escape *)

Inductive exn : Type :=
| IndexError   (* list index out of range *)
| ValueError   (* int() on a malformed literal, bad format string *)
| TypeError.   (* str % arg with a wrong number of arguments *)

(** ** The built-in [str] operations the module uses *)

Module PyStr.

Definition code (c : ascii) : N := N_of_ascii c.

(** [c.isspace()]: the characters [str.split()] separates on.
    Below 256 these are TAB..CR, FS..US, SPACE, NEL and NBSP. *)
Definition isspace (c : ascii) : bool :=
  let n := code c in
  ((9 <=? n) && (n <=? 13) || (28 <=? n) && (n <=? 32)
   || (n =? 133) || (n =? 160))%N.

(** [s.split()] with no separator: maximal runs of non-space characters,
    in order; no empty token.  [cur] is the token being read ([None]
    between tokens). *)
Fixpoint split_from (cur : option string) (s : string) : list string :=
  match s with
  | EmptyString =>
      match cur with Some w => [w] | None => [] end
  | String c rest =>
      if isspace c then
        match cur with
        | Some w => w :: split_from None rest
        | None => split_from None rest
        end
      else
        match cur with
        | Some w => split_from (Some (w ++ String c EmptyString)) rest
        | None => split_from (Some (String c EmptyString)) rest
        end
  end.

Definition split (s : string) : list string := split_from None s.

(** Decimal characters '0'..'9'. *)
Definition isdecimal_char (c : ascii) : bool :=
  let n := code c in ((48 <=? n) && (n <=? 57))%N.

(** Characters with the Unicode digit property: below 256 the decimal
    characters and the superscripts two, three and one. *)
Definition isdigit_char (c : ascii) : bool :=
  let n := code c in
  (isdecimal_char c || (n =? 178) || (n =? 179) || (n =? 185))%N.

Fixpoint all_chars (p : ascii -> bool) (s : string) : bool :=
  match s with
  | EmptyString => true
  | String c rest => p c && all_chars p rest
  end.

(** [s.isdigit()]: at least one character and all of them digits. *)
Definition isdigit (s : string) : bool :=
  match s with
  | EmptyString => false
  | _ => all_chars isdigit_char s
  end.

Definition digit_value (c : ascii) : Z := (Z.of_N (code c) - 48)%Z.

(** The digits of an [int()] literal after its sign: decimal characters,
    single underscores allowed between two of them.  [acc] is the value
    read so far, [prev_digit] tells whether the previous character was a
    decimal character. *)
Fixpoint int_digits (acc : Z) (prev_digit : bool) (s : string) : option Z :=
  match s with
  | EmptyString => if prev_digit then Some acc else None
  | String c rest =>
      if isdecimal_char c then
        int_digits (10 * acc + digit_value c)%Z true rest
      else if (code c =? 95)%N then
        if prev_digit then int_digits acc false rest else None
      else None
  end.

(** [int(s)] in base 10 on a string without surrounding white space (a
    token of [split] has none): an optional sign, then the digits, read
    as Python 3.6 and later do; anything else is a ValueError. *)
Definition int (s : string) : exn + Z :=
  let signed :=
    match s with
    | String c rest =>
        if (code c =? 45)%N then ((-1)%Z, rest)
        else if (code c =? 43)%N then (1%Z, rest)
        else (1%Z, s)
    | EmptyString => (1%Z, s)
    end in
  match int_digits 0%Z false (snd signed) with
  | Some n => inr (fst signed * n)%Z
  | None => inl ValueError
  end.

(** [fmt % arg] for one [str] argument.  [used] tells whether the
    argument has been consumed by a conversion.  The templates of this
    module contain no conversion other than [%s]; flags, widths and the
    other conversion types are not modelled and answered like an unknown
    conversion character. *)
Fixpoint format_from (used : bool) (fmt arg : string) : exn + (string * bool) :=
  match fmt with
  | EmptyString => inr (EmptyString, used)
  | String c rest =>
      if (code c =? 37)%N then
        match rest with
        | EmptyString => inl ValueError          (* incomplete format *)
        | String d rest' =>
            if (code d =? 37)%N then
              match format_from used rest' arg with
              | inr (out, u) => inr (String d out, u)
              | inl e => inl e
              end
            else if (code d =? 115)%N then
              if used then inl TypeError         (* not enough arguments *)
              else
                match format_from true rest' arg with
                | inr (out, u) => inr (arg ++ out, u)
                | inl e => inl e
                end
            else inl ValueError                  (* unsupported character *)
        end
      else
        match format_from used rest arg with
        | inr (out, u) => inr (String c out, u)
        | inl e => inl e
        end
  end.

(** The [%] operator: every argument must have been converted. *)
Definition format (fmt arg : string) : exn + string :=
  match format_from false fmt arg with
  | inr (out, true) => inr out
  | inr (_, false) => inl TypeError   (* not all arguments converted *)
  | inl e => inl e
  end.

End PyStr.

(** ** The tables of [productivity_bot.models] *)

Module Models.

(** Modelled from the spec: [productivity_bot/models.py] is not part of
    the sources at hand.  A [User] is identified by its conversation
    identifier and its user identifier (spec, section 3). *)
Record User : Type := mkUser {
  space_name : string;
  user_name : string
}.

Definition User_eqb (u v : User) : bool :=
  (space_name u =? space_name v) && (user_name u =? user_name v).

(** Modelled from the spec: a row of the [ActiveLoops] table, absent with
    [models.py]: its owning user, the ping frequency and the countdown
    counter (spec, section 3), under the primary key Django gives every
    row. *)
Record ActiveLoops : Type := mkActiveLoops {
  pk : N;
  user : User;
  mssg_freq : Z;
  mins_to_mssg : Z
}.

(** Modelled from the spec: a logged response, absent with [models.py]:
    its owning user and the text as the dispatcher passes it (spec,
    section 3; the time stamp is left out). *)
Record UserResponse : Type := mkUserResponse {
  response_user : User;
  response_text : list string
}.

(** Modelled from the spec: the store behind [models.py], absent from the
    sources: the three tables (spec, section 3) and the next primary key
    of [ActiveLoops]. *)
Record DB : Type := mkDB {
  users : list User;
  active_loops : list ActiveLoops;
  user_responses : list UserResponse;
  next_pk : N
}.

Definition empty_db : DB := mkDB [] [] [] 1.

End Models.
Import Models.

(** ** Database access with exceptions

    A computation takes the database and gives the database it leaves and
    either the exception that escaped or a value.  Every ORM call commits on
    its own (Django's autocommit), so the writes made before an exception
    stay. *)

Definition M (A : Type) : Type := DB -> DB * (exn + A).

Definition ret {A} (a : A) : M A := fun db => (db, inr a).

Definition raise {A} (e : exn) : M A := fun db => (db, inl e).

Definition bind {A B} (m : M A) (k : A -> M B) : M B :=
  fun db =>
    match m db with
    | (db', inr a) => k a db'
    | (db', inl e) => (db', inl e)
    end.

(** A pure computation that may fail, such as [int(s)] or [fmt % arg]. *)
Definition lift {A} (r : exn + A) : M A := fun db => (db, r).

Declare Scope py_scope.
Delimit Scope py_scope with py.
Notation "x <- m ;; k" := (bind m (fun x => k))
  (at level 61, m at next level, right associativity) : py_scope.
Notation "m ;; k" := (bind m (fun _ => k))
  (at level 61, right associativity) : py_scope.
Open Scope py_scope.

(** Python's short-circuit [a or b], [a and b] and [not a] on conditions
    that read the database or may raise. *)
Definition por (a b : M bool) : M bool :=
  x <- a ;; if x : bool then ret true else b.

Definition pand (a b : M bool) : M bool :=
  x <- a ;; if x : bool then b else ret false.

Definition pnot (a : M bool) : M bool :=
  x <- a ;; ret (negb x).

(** [l[i]] on a Python list. *)
Definition index {A} (l : list A) (i : nat) : M A :=
  match nth_error l i with
  | Some a => ret a
  | None => raise IndexError
  end.

Module ORM.

(** Modelled from the spec: [User.objects.get_or_create(space_name=...,
    user_name=...)[0]] (spec, section 6, User.getOrCreate): the row with
    these two fields, inserted first when the table has none. *)
Definition get_or_create (space_name user_name : string) : M User :=
  fun db =>
    let u := mkUser space_name user_name in
    if existsb (User_eqb u) (users db) then (db, inr u)
    else (mkDB (users db ++ [u]) (active_loops db) (user_responses db)
               (next_pk db), inr u).

(** Modelled from the spec: [ActiveLoops.objects.filter(user=user)]
    (spec, section 6, ActiveSession.findByUser), a pure read. *)
Definition filter_user (u : User) (db : DB) : list ActiveLoops :=
  filter (fun row => User_eqb (user row) u) (active_loops db).

(** Modelled from the spec: [row.delete()] (spec, section 6,
    ActiveSession.delete): removes the row of this primary key. *)
Definition delete (row : ActiveLoops) : M unit :=
  fun db =>
    (mkDB (users db)
          (filter (fun r => negb (pk r =? pk row)%N) (active_loops db))
          (user_responses db) (next_pk db), inr tt).

(** Modelled from the spec: [ActiveLoops(user=..., mssg_freq=...,
    mins_to_mssg=...).save()] (spec, section 6, ActiveSession.create):
    inserts a new row under the next primary key. *)
Definition save (u : User) (freq mins : Z) : M unit :=
  fun db =>
    (mkDB (users db)
          (active_loops db ++ [mkActiveLoops (next_pk db) u freq mins])
          (user_responses db) (N.succ (next_pk db)), inr tt).

End ORM.

(** ** The module itself *)

Definition COMMAND_ERROR : string := "Sorry, that was an invalid command.".
Definition SESSION_BEGIN : string :=
  "Working session has begun! To end the session, say " ++
  String (ascii_of_nat 34) "stop" ++ String (ascii_of_nat 34) EmptyString.
Definition SESSION_END : string :=
  "Working session has ended! See a summary of your work here: %s".

(** [in_active_loop(user)]: the first [ActiveLoops] row of the user, or
    [None] for Python's [False]. *)
Definition in_active_loop (user : User) : M (option ActiveLoops) :=
  fun db => (db, inr (hd_error (ORM.filter_user user db))).

(** Truth value of what [in_active_loop] returns: a row is true. *)
Definition truthy (active_loop : option ActiveLoops) : bool :=
  match active_loop with
  | Some _ => true
  | None => false
  end.

Definition start_active_loop (user : User) (mssg_freq space_name : string)
  : M string :=
  active_loop <- in_active_loop user ;;
  (if truthy active_loop then
     match active_loop with
     | Some row => ORM.delete row
     | None => ret tt
     end
   else ret tt) ;;
  freq <- lift (PyStr.int mssg_freq) ;;
  freq' <- lift (PyStr.int mssg_freq) ;;
  ORM.save user freq (-1 * freq')%Z ;;
  lift (PyStr.format SESSION_BEGIN mssg_freq).

Definition end_active_loop (user : User) : M string :=
  active_loop <- in_active_loop user ;;
  match active_loop with
  | None => ret "I can't believe you've done this"
  | Some row =>
      ORM.delete row ;;
      let summary_link := "google.com" in
      lift (PyStr.format SESSION_END summary_link)
  end.

(** The body of [log_user_response] is two TODO comments and the return:
    nothing is stored. *)
Definition log_user_response (user : User) (text : list string) : M string :=
  ret "Response has been logged!".

Definition handle_inbound_message (mssg_text user_name space_name : string)
  : M string :=
  let mssg := PyStr.split mssg_text in
  user <- ORM.get_or_create space_name user_name ;;
  first <- index mssg 0 ;;
  if first =? "start" then
    invalid <-
      por (ret (negb (length mssg =? 3)%nat))
          (pnot (por (m1 <- index mssg 1 ;; ret (PyStr.isdigit m1))
                     (m2 <- index mssg 2 ;; ret (negb (m2 =? "hours"))))) ;;
    if invalid : bool then ret COMMAND_ERROR
    else
      mssg_freq <- index mssg 1 ;;
      start_active_loop user mssg_freq space_name
  else
    first <- index mssg 0 ;;
    if first =? "stop" then
      invalid <-
        pand (ret (negb (length mssg =? 1)%nat))
             (pnot (active_loop <- in_active_loop user ;;
                    ret (truthy active_loop))) ;;
      if invalid : bool then ret COMMAND_ERROR
      else end_active_loop user
    else
      active_loop <- in_active_loop user ;;
      if negb (truthy active_loop) then ret COMMAND_ERROR
      else log_user_response user mssg.

(** ** Session states of the spec *)

(** The rows of a user in [ActiveLoops]. *)
Definition sessions (u : User) (db : DB) : list ActiveLoops :=
  ORM.filter_user u db.

(** The states of the spec's session machine (section 4.2): whether an
    [ActiveLoops] row exists for the user. *)
Definition NoSession (u : User) (db : DB) : Prop := sessions u db = [].
Definition InSession (u : User) (db : DB) : Prop := sessions u db <> [].

(** The spec's invariant (section 3): at most one row for each user. *)
Definition at_most_one_session (db : DB) : Prop :=
  forall u, (length (sessions u db) <= 1)%nat.

(** What a call leaves and what it answers. *)
Definition db_after {A} (r : DB * (exn + A)) : DB := fst r.
Definition outcome {A} (r : DB * (exn + A)) : exn + A := snd r.

(** The database once the dispatcher has resolved the user. *)
Definition resolved (user_name space_name : string) (db : DB) : DB :=
  db_after (ORM.get_or_create space_name user_name db).

(** The databases the dispatcher can produce from the empty one. *)
Inductive reachable : DB -> Prop :=
| reachable_empty : reachable empty_db
| reachable_message db mssg_text user_name space_name :
    reachable db ->
    reachable (db_after (handle_inbound_message mssg_text user_name space_name db)).

(** The database [start_active_loop] works on once the row found by
    [in_active_loop], if any, is deleted. *)
Definition cleared (user : User) (db : DB) : DB :=
  match hd_error (sessions user db) with
  | Some row => db_after (ORM.delete row db)
  | None => db
  end.

(** Sample data: a user, the database after her first message, and the
    database while she is in a session pinged every 3. *)
Definition alice : User := mkUser "spaces/A" "users/1".
Definition fresh_alice : DB := mkDB [alice] [] [] 1.
Definition in_session_3 : DB :=
  mkDB [alice] [mkActiveLoops 1 alice 3 (-3)] [] 2.

(** Primary keys of [ActiveLoops]: no two rows share one, and all are
    below the key the next saved row gets. *)
Definition keys_fresh (db : DB) : Prop :=
  NoDup (map pk (active_loops db)) /\
  forall row, In row (active_loops db) -> (pk row < next_pk db)%N.

(** More sample data: a second user, and both users in a session. *)
Definition bob : User := mkUser "spaces/B" "users/2".
Definition two_sessions : DB :=
  mkDB [alice; bob]
       [mkActiveLoops 1 alice 3 (-3); mkActiveLoops 2 bob 1 (-1)] [] 3.

(** * Properties *)

(** ** Strings *)

Example split_start :
  PyStr.split "  start 3   hours " = ["start"; "3"; "hours"].
Proof. reflexivity. Qed.

Example split_blank : PyStr.split "   " = [].
Proof. reflexivity. Qed.

Example isdigit_examples :
  PyStr.isdigit "2019" = true /\ PyStr.isdigit "abc" = false /\
  PyStr.isdigit "-5" = false /\ PyStr.isdigit EmptyString = false.
Proof. repeat split; reflexivity. Qed.

Example int_examples :
  PyStr.int "3" = inr 3%Z /\ PyStr.int "007" = inr 7%Z /\
  PyStr.int "-5" = inr (-5)%Z /\ PyStr.int "abc" = inl ValueError /\
  PyStr.int EmptyString = inl ValueError /\ PyStr.int "1_0" = inr 10%Z /\
  PyStr.int "1__0" = inl ValueError.
Proof. repeat split; reflexivity. Qed.

Example format_examples :
  PyStr.format "see %s!" "x" = inr "see x!" /\
  PyStr.format "plain" "x" = inl TypeError /\
  PyStr.format "%s and %s" "x" = inl TypeError /\
  PyStr.format "100%%" "x" = inl TypeError.
Proof. repeat split; reflexivity. Qed.

Lemma User_eqb_eq u v : User_eqb u v = true <-> u = v.
Proof.
  destruct u as [s1 n1], v as [s2 n2]; unfold User_eqb; simpl.
  rewrite andb_true_iff, !String.eqb_eq.
  split; [intros [-> ->]; reflexivity | intros H; inversion H; auto].
Qed.

Lemma User_eqb_refl u : User_eqb u u = true.
Proof. apply User_eqb_eq; reflexivity. Qed.

Lemma split_from_some_nonempty s : forall w, PyStr.split_from (Some w) s <> [].
Proof.
  induction s as [|c s IH]; intros w; simpl.
  - discriminate.
  - destruct (PyStr.isspace c); [discriminate | apply IH].
Qed.

(** [split] gives no token exactly on the strings made of white space. *)
Lemma split_nil_iff s :
  PyStr.split s = [] <-> PyStr.all_chars PyStr.isspace s = true.
Proof.
  unfold PyStr.split.
  induction s as [|c s IH]; simpl.
  - tauto.
  - destruct (PyStr.isspace c); simpl.
    + exact IH.
    + split; [intros H | discriminate].
      exfalso; exact (split_from_some_nonempty _ _ H).
Qed.

Lemma append_empty_r s : s ++ EmptyString = s.
Proof. induction s as [|c s IH]; simpl; [|rewrite IH]; reflexivity. Qed.

(** [SESSION_BEGIN] has no conversion, so [SESSION_BEGIN % x] never
    converts its argument. *)
Lemma format_SESSION_BEGIN arg :
  PyStr.format SESSION_BEGIN arg = inl TypeError.
Proof. reflexivity. Qed.

Lemma format_SESSION_END arg :
  PyStr.format SESSION_END arg =
  inr ("Working session has ended! See a summary of your work here: " ++ arg).
Proof.
  unfold PyStr.format, SESSION_END; cbn.
  rewrite append_empty_r; reflexivity.
Qed.

(** ** The tables under the ORM calls *)

Lemma filter_comm {A} (p q : A -> bool) l :
  filter p (filter q l) = filter q (filter p l).
Proof.
  induction l as [|a l IH]; simpl; [reflexivity|].
  destruct (p a) eqn:Hp, (q a) eqn:Hq; simpl; rewrite ?Hp, ?Hq, IH; reflexivity.
Qed.

Lemma filter_length {A} (p : A -> bool) l :
  (length (filter p l) <= length l)%nat.
Proof.
  induction l as [|a l IH]; simpl; [lia|].
  destruct (p a); simpl; lia.
Qed.

Lemma sessions_resolved u user_name space_name db :
  sessions u (resolved user_name space_name db) = sessions u db.
Proof.
  unfold resolved, db_after, ORM.get_or_create.
  destruct (existsb _ _); reflexivity.
Qed.

Lemma get_or_create_eq user_name space_name db :
  ORM.get_or_create space_name user_name db =
  (resolved user_name space_name db, inr (mkUser space_name user_name)).
Proof.
  unfold resolved, db_after, ORM.get_or_create.
  destruct (existsb _ _); reflexivity.
Qed.

Lemma resolved_tables user_name space_name db :
  active_loops (resolved user_name space_name db) = active_loops db /\
  user_responses (resolved user_name space_name db) = user_responses db /\
  next_pk (resolved user_name space_name db) = next_pk db.
Proof.
  unfold resolved, db_after, ORM.get_or_create.
  destruct (existsb _ _); simpl; auto.
Qed.

Lemma sessions_delete u row db :
  sessions u (db_after (ORM.delete row db)) =
  filter (fun r => negb (pk r =? pk row)%N) (sessions u db).
Proof. unfold sessions, ORM.filter_user; simpl. apply filter_comm. Qed.

Lemma sessions_save u v freq mins db :
  sessions u (db_after (ORM.save v freq mins db)) =
  (sessions u db ++
   (if User_eqb v u then [mkActiveLoops (next_pk db) v freq mins] else []))%list.
Proof. unfold sessions, ORM.filter_user; simpl. now rewrite filter_app. Qed.

(** Deleting the row [in_active_loop] found leaves the user without a row,
    when the user had at most one. *)
Lemma sessions_delete_found u row db :
  (length (sessions u db) <= 1)%nat ->
  hd_error (sessions u db) = Some row ->
  sessions u (db_after (ORM.delete row db)) = [].
Proof.
  intros Hlen Hhd. rewrite sessions_delete.
  destruct (sessions u db) as [|r [|r' l]]; simpl in *; try discriminate; try lia.
  injection Hhd as ->. now rewrite N.eqb_refl.
Qed.

Lemma delete_keeps_invariant row db :
  at_most_one_session db -> at_most_one_session (db_after (ORM.delete row db)).
Proof.
  intros H u. rewrite sessions_delete.
  eapply Nat.le_trans; [apply filter_length | apply H].
Qed.

Lemma save_keeps_invariant v freq mins db :
  at_most_one_session db -> sessions v db = [] ->
  at_most_one_session (db_after (ORM.save v freq mins db)).
Proof.
  intros H Hv u. rewrite sessions_save.
  destruct (User_eqb v u) eqn:E.
  - apply User_eqb_eq in E; subst u. rewrite Hv; simpl; lia.
  - rewrite app_nil_r. apply H.
Qed.

(** ** The dispatcher, branch by branch *)

Section Dispatch.

Variables (mssg_text user_name space_name : string) (db : DB).

Let user := mkUser space_name user_name.
Let db1 := resolved user_name space_name db.

(** No token: [mssg[0]] raises. *)
Lemma handle_no_token :
  PyStr.split mssg_text = [] ->
  handle_inbound_message mssg_text user_name space_name db =
  (db1, inl IndexError).
Proof.
  intros Hs. unfold handle_inbound_message, bind.
  rewrite get_or_create_eq, Hs. reflexivity.
Qed.

(** First token [start]: the session is started exactly when there are
    three tokens and the second is a digit string or the third is not
    [hours]. *)
Lemma handle_start rest :
  PyStr.split mssg_text = "start" :: rest ->
  handle_inbound_message mssg_text user_name space_name db =
  match rest with
  | [m1; m2] =>
      if PyStr.isdigit m1 || negb (m2 =? "hours")
      then start_active_loop user m1 space_name db1
      else (db1, inr COMMAND_ERROR)
  | _ => (db1, inr COMMAND_ERROR)
  end.
Proof.
  intros Hs. unfold handle_inbound_message, bind.
  rewrite get_or_create_eq, Hs.
  destruct rest as [|m1 [|m2 [|m3 rest]]]; try reflexivity.
  cbn. destruct (PyStr.isdigit m1); cbn; [reflexivity|].
  destruct (m2 =? "hours"); reflexivity.
Qed.

(** First token [stop]: the session is ended exactly when the message is
    that one token or the user has a row. *)
Lemma handle_stop rest :
  PyStr.split mssg_text = "stop" :: rest ->
  handle_inbound_message mssg_text user_name space_name db =
  if (length rest =? 0)%nat || truthy (hd_error (sessions user db1))
  then end_active_loop user db1
  else (db1, inr COMMAND_ERROR).
Proof.
  intros Hs. unfold handle_inbound_message, bind.
  rewrite get_or_create_eq, Hs.
  destruct rest as [|m1 rest]; [reflexivity|].
  subst user db1; unfold sessions.
  destruct (hd_error (ORM.filter_user _ _)) eqn:E;
    unfold pand, pnot, in_active_loop, bind, index, ret; simpl;
    rewrite E; reflexivity.
Qed.

(** Any other first token: acknowledged when the user has a row. *)
Lemma handle_other first rest :
  PyStr.split mssg_text = first :: rest ->
  first <> "start" -> first <> "stop" ->
  handle_inbound_message mssg_text user_name space_name db =
  if truthy (hd_error (sessions user db1))
  then (db1, inr "Response has been logged!")
  else (db1, inr COMMAND_ERROR).
Proof.
  intros Hs H1 H2. unfold handle_inbound_message, bind.
  rewrite get_or_create_eq, Hs.
  apply String.eqb_neq in H1, H2.
  subst user db1; unfold sessions.
  destruct (hd_error (ORM.filter_user _ _)) eqn:E;
    unfold in_active_loop, log_user_response, bind, index, ret; simpl;
    rewrite H1, H2, E; reflexivity.
Qed.

End Dispatch.

(** ** The session operations, step by step *)

Lemma db_after_pair {A} (db : DB) (r : exn + A) : db_after (db, r) = db.
Proof. reflexivity. Qed.

Lemma start_active_loop_eq user mssg_freq space_name db :
  start_active_loop user mssg_freq space_name db =
  match PyStr.int mssg_freq with
  | inl e => (cleared user db, inl e)
  | inr n =>
      (db_after (ORM.save user n (-1 * n) (cleared user db)), inl TypeError)
  end.
Proof.
  unfold start_active_loop, cleared, sessions, in_active_loop, bind, lift.
  destruct (hd_error (ORM.filter_user user db)) as [row|]; simpl;
    destruct (PyStr.int mssg_freq); reflexivity.
Qed.

Lemma end_active_loop_eq user db :
  end_active_loop user db =
  match hd_error (sessions user db) with
  | None => (db, inr "I can't believe you've done this")
  | Some row =>
      (db_after (ORM.delete row db),
       inr "Working session has ended! See a summary of your work here: google.com")
  end.
Proof.
  unfold end_active_loop, sessions, in_active_loop, bind, lift.
  destruct (hd_error (ORM.filter_user user db)); reflexivity.
Qed.

Lemma sessions_cleared user db :
  (length (sessions user db) <= 1)%nat -> sessions user (cleared user db) = [].
Proof.
  intros Hlen. unfold cleared.
  destruct (hd_error (sessions user db)) as [row|] eqn:E.
  - now apply sessions_delete_found.
  - destruct (sessions user db); [reflexivity | discriminate].
Qed.

Lemma cleared_keeps_invariant user db :
  at_most_one_session db -> at_most_one_session (cleared user db).
Proof.
  intros H. unfold cleared.
  destruct (hd_error (sessions user db)); [now apply delete_keeps_invariant | exact H].
Qed.

Lemma cleared_rows user db row :
  In row (active_loops (cleared user db)) -> In row (active_loops db).
Proof.
  unfold cleared. destruct (hd_error (sessions user db)); simpl; [|auto].
  intros H. apply filter_In in H. tauto.
Qed.

(** A started session: the user's only row afterwards is the new one. *)
Lemma start_active_loop_session user mssg_freq space_name db n :
  (length (sessions user db) <= 1)%nat ->
  PyStr.int mssg_freq = inr n ->
  sessions user (db_after (start_active_loop user mssg_freq space_name db)) =
  [mkActiveLoops (next_pk (cleared user db)) user n (-1 * n)].
Proof.
  intros Hlen Hint. rewrite start_active_loop_eq, Hint. rewrite db_after_pair.
  rewrite sessions_save, sessions_cleared by exact Hlen.
  now rewrite User_eqb_refl.
Qed.

Lemma start_keeps_invariant user mssg_freq space_name db :
  at_most_one_session db ->
  at_most_one_session (db_after (start_active_loop user mssg_freq space_name db)).
Proof.
  intros H. rewrite start_active_loop_eq.
  destruct (PyStr.int mssg_freq) as [e|n]; rewrite db_after_pair.
  - now apply cleared_keeps_invariant.
  - apply save_keeps_invariant.
    + now apply cleared_keeps_invariant.
    + apply sessions_cleared, H.
Qed.

Lemma end_keeps_invariant user db :
  at_most_one_session db ->
  at_most_one_session (db_after (end_active_loop user db)).
Proof.
  intros H. rewrite end_active_loop_eq.
  destruct (hd_error (sessions user db)); rewrite db_after_pair.
  - now apply delete_keeps_invariant.
  - exact H.
Qed.

Lemma resolved_keeps_invariant user_name space_name db :
  at_most_one_session db ->
  at_most_one_session (resolved user_name space_name db).
Proof. intros H u. rewrite sessions_resolved. apply H. Qed.

Lemma handle_keeps_invariant mssg_text user_name space_name db :
  at_most_one_session db ->
  at_most_one_session
    (db_after (handle_inbound_message mssg_text user_name space_name db)).
Proof.
  intros H.
  pose proof (resolved_keeps_invariant user_name space_name db H) as H1.
  destruct (PyStr.split mssg_text) as [|first rest] eqn:Hs.
  - rewrite handle_no_token by exact Hs. exact H1.
  - destruct (String.eqb_spec first "start") as [->|Hstart].
    + rewrite (handle_start _ _ _ _ rest Hs).
      destruct rest as [|m1 [|m2 [|m3 rest]]]; try exact H1.
      destruct (PyStr.isdigit m1 || negb (m2 =? "hours")); [|exact H1].
      now apply start_keeps_invariant.
    + destruct (String.eqb_spec first "stop") as [->|Hstop].
      * rewrite (handle_stop _ _ _ _ rest Hs).
        destruct (_ || _); [now apply end_keeps_invariant | exact H1].
      * rewrite (handle_other _ _ _ _ first rest Hs Hstart Hstop).
        destruct (truthy _); exact H1.
Qed.

(** ** The claims *)

(** C1 (the code departs from the claim).  The claim: every message text
    gets a reply string and no exception escapes; in particular every valid
    start does.  The code: every message the dispatcher accepts as a start
    (three tokens, the second a digit string or the third not [hours])
    ends in an exception, the [ValueError] of [int] or else the [TypeError]
    of [SESSION_BEGIN % mssg_freq]; no start is ever answered. *)
Theorem C1_accepted_start_raises mssg_text user_name space_name db m1 m2 :
  PyStr.split mssg_text = ["start"; m1; m2] ->
  PyStr.isdigit m1 || negb (m2 =? "hours") = true ->
  let r := handle_inbound_message mssg_text user_name space_name db in
  outcome r = inl TypeError \/ outcome r = inl ValueError.
Proof.
  intros Hs Hv r. subst r.
  rewrite (handle_start _ _ _ _ _ Hs), Hv, start_active_loop_eq.
  destruct (PyStr.int m1) as [[]|n] eqn:E; auto;
    unfold PyStr.int in E; destruct (PyStr.int_digits _ _ _); discriminate.
Qed.

Lemma C1_accepted_start_raises_witness :
  let r := handle_inbound_message "start 3 hours" "users/1" "spaces/A" empty_db in
  outcome r = inl TypeError \/ outcome r = inl ValueError.
Proof.
  apply (C1_accepted_start_raises "start 3 hours" "users/1" "spaces/A"
           empty_db "3" "hours"); reflexivity.
Defined.

(** C2 (the code departs from the claim).  The claim: for a user in
    NoSession, [start 3 hours] leaves the user InSession with ping frequency
    3 and the reply contains the begin-session text.  The code: the row with
    frequency 3 is saved and is the user's only row, but the call then
    raises [TypeError] instead of returning a reply. *)
Theorem C2_start_3_hours_saves_then_raises user_name space_name db :
  let user := mkUser space_name user_name in
  NoSession user db ->
  let r := handle_inbound_message "start 3 hours" user_name space_name db in
  InSession user (db_after r) /\
  (exists row, sessions user (db_after r) = [row] /\ mssg_freq row = 3%Z) /\
  outcome r = inl TypeError.
Proof.
  intros user Hno r. subst r.
  rewrite (handle_start "start 3 hours" _ _ _ ["3"; "hours"] eq_refl).
  cbv beta iota.
  change (PyStr.isdigit "3" || negb ("hours" =? "hours")) with true. cbv iota.
  assert (Hlen : (length (sessions user (resolved user_name space_name db)) <= 1)%nat).
  { rewrite sessions_resolved, Hno. simpl; lia. }
  pose proof (start_active_loop_session user "3" space_name _ 3%Z Hlen eq_refl) as Hs.
  fold user. unfold InSession. rewrite Hs. repeat split.
  - discriminate.
  - eexists; split; reflexivity.
  - now rewrite start_active_loop_eq.
Qed.

Lemma C2_start_3_hours_saves_then_raises_witness :
  let r := handle_inbound_message "start 3 hours" "users/1" "spaces/A" empty_db in
  InSession alice (db_after r) /\
  (exists row, sessions alice (db_after r) = [row] /\ mssg_freq row = 3%Z) /\
  outcome r = inl TypeError.
Proof.
  apply (C2_start_3_hours_saves_then_raises "users/1" "spaces/A" empty_db).
  reflexivity.
Defined.

(** C3 (the code departs from the claim).  The claim: a message starting
    with [start] is routed to the session start only with three tokens, a
    digit string second and [hours] third, and gets the invalid-command
    reply otherwise.  The code: [start abc xyz] is routed to
    [start_active_loop] with frequency token [abc], which raises
    [ValueError]; it is not answered with the invalid-command reply. *)
Theorem C3_start_abc_xyz_is_started user_name space_name db :
  let user := mkUser space_name user_name in
  let r := handle_inbound_message "start abc xyz" user_name space_name db in
  PyStr.split "start abc xyz" = ["start"; "abc"; "xyz"] /\
  PyStr.isdigit "abc" = false /\
  r = start_active_loop user "abc" space_name (resolved user_name space_name db) /\
  outcome r = inl ValueError /\
  outcome r <> inr COMMAND_ERROR.
Proof.
  intros user r. subst r user.
  rewrite (handle_start "start abc xyz" _ _ _ ["abc"; "xyz"] eq_refl).
  cbv beta iota.
  change (PyStr.isdigit "abc" || negb ("xyz" =? "hours")) with true. cbv iota.
  rewrite start_active_loop_eq.
  change (PyStr.int "abc") with (@inl exn Z ValueError). cbv iota.
  repeat split; try reflexivity. discriminate.
Qed.

(** C10.  A text made of white space only has no token, and the dispatcher
    raises [IndexError] on [mssg[0]] after resolving the user; that is the
    only way an [IndexError] arises, so the call gets past the first token
    exactly when the text has a character that is not white space. *)
Theorem C10_first_token_access mssg_text user_name space_name db :
  let r := handle_inbound_message mssg_text user_name space_name db in
  (mssg_text <> EmptyString ->
   PyStr.all_chars PyStr.isspace mssg_text = true ->
   r = (resolved user_name space_name db, inl IndexError)) /\
  (outcome r <> inl IndexError <->
   PyStr.all_chars PyStr.isspace mssg_text = false).
Proof.
  intros r. subst r. split.
  - intros _ Hws. apply handle_no_token, split_nil_iff, Hws.
  - destruct (PyStr.split mssg_text) as [|first rest] eqn:Hs.
    + rewrite handle_no_token by exact Hs.
      apply split_nil_iff in Hs. rewrite Hs. split; [intros H; now elim H | discriminate].
    + assert (Hns : PyStr.all_chars PyStr.isspace mssg_text = false).
      { destruct (PyStr.all_chars _ _) eqn:E; [|reflexivity].
        apply split_nil_iff in E. congruence. }
      split; [intros _; exact Hns | intros _].
      destruct (String.eqb_spec first "start") as [->|Hstart].
      * rewrite (handle_start _ _ _ _ rest Hs).
        destruct rest as [|m1 [|m2 [|m3 rest]]]; try discriminate.
        destruct (_ || _); [|discriminate].
        rewrite start_active_loop_eq.
        destruct (PyStr.int m1) as [[]|n] eqn:E; try discriminate;
          unfold PyStr.int in E; destruct (PyStr.int_digits _ _ _); discriminate.
      * destruct (String.eqb_spec first "stop") as [->|Hstop].
        -- rewrite (handle_stop _ _ _ _ rest Hs).
           destruct (_ || _); [|discriminate].
           rewrite end_active_loop_eq.
           destruct (hd_error _); discriminate.
        -- rewrite (handle_other _ _ _ _ first rest Hs Hstart Hstop).
           destruct (truthy _); discriminate.
Qed.

Lemma C10_first_token_access_witness :
  handle_inbound_message " " "users/1" "spaces/A" empty_db =
  (fresh_alice, inl IndexError).
Proof.
  apply (C10_first_token_access " " "users/1" "spaces/A" empty_db).
  - discriminate.
  - reflexivity.
Defined.

(** C4, the claim as stated, fails.  It counts a [stop] message of several
    tokens as a valid stop when the user has no session; the dispatcher
    answers [stop now] without a session with the invalid-command reply and
    does not reach [end_active_loop], and it does end the session on
    [stop now] when the user has one. *)
Lemma C4_stop_now_counterexample :
  let r := handle_inbound_message "stop now" "users/1" "spaces/A" empty_db in
  let r' := handle_inbound_message "stop now" "users/1" "spaces/A" in_session_3 in
  PyStr.split "stop now" = ["stop"; "now"] /\
  NoSession alice empty_db /\
  r = (fresh_alice, inr COMMAND_ERROR) /\
  r <> end_active_loop alice (resolved "users/1" "spaces/A" empty_db) /\
  InSession alice in_session_3 /\
  r' = end_active_loop alice (resolved "users/1" "spaces/A" in_session_3) /\
  outcome r' <> inr COMMAND_ERROR.
Proof. cbv zeta. repeat split; try reflexivity; discriminate. Qed.

(** C4, amended.  A message whose first token is [stop] is routed to
    [end_active_loop] exactly when it is that single token or the user has
    an active session; otherwise the reply is the invalid-command string,
    which [end_active_loop] never gives. *)
Theorem C4_stop_valid_iff mssg_text user_name space_name db rest :
  PyStr.split mssg_text = "stop" :: rest ->
  let user := mkUser space_name user_name in
  let db1 := resolved user_name space_name db in
  let r := handle_inbound_message mssg_text user_name space_name db in
  (rest = [] \/ InSession user db -> r = end_active_loop user db1) /\
  (~ (rest = [] \/ InSession user db) -> r = (db1, inr COMMAND_ERROR)) /\
  outcome (end_active_loop user db1) <> inr COMMAND_ERROR.
Proof.
  intros Hs user db1 r. subst r db1 user.
  rewrite (handle_stop _ _ _ _ rest Hs), end_active_loop_eq.
  unfold InSession. rewrite sessions_resolved.
  destruct rest as [|m1 rest]; destruct (sessions _ db) as [|row l]; simpl;
    repeat split; intros; try reflexivity; try discriminate; try tauto.
  - destruct H as [H|H]; [discriminate | now elim H].
  - elim H. right. discriminate.
Qed.

Lemma C4_stop_valid_iff_witness :
  handle_inbound_message "stop now" "users/1" "spaces/A" in_session_3 =
  end_active_loop alice (resolved "users/1" "spaces/A" in_session_3).
Proof.
  apply (C4_stop_valid_iff "stop now" "users/1" "spaces/A" in_session_3 ["now"]).
  - reflexivity.
  - right. discriminate.
Defined.

(** The invariant holds on every database the dispatcher can produce. *)
Lemma reachable_at_most_one_session db :
  reachable db -> at_most_one_session db.
Proof.
  induction 1 as [|db t u s _ IH].
  - intros v. simpl. lia.
  - now apply handle_keeps_invariant.
Qed.

Example in_session_3_reachable : reachable in_session_3.
Proof.
  exact (reachable_message empty_db "start 3 hours" "users/1" "spaces/A"
           reachable_empty).
Qed.

Lemma in_session_3_invariant : at_most_one_session in_session_3.
Proof.
  intros u. unfold sessions, ORM.filter_user; simpl.
  destruct (User_eqb alice u); simpl; lia.
Qed.

(** C5.  For a user whose session has ping frequency 3, [start 5 hours]
    removes that row and saves a new one: afterwards the user has exactly
    one row, of frequency 5, and the old row is gone.  The dispatcher and
    each session operation keep the invariant that a user has at most one
    row. *)
Theorem C5_restart_keeps_one_session user_name space_name db :
  let user := mkUser space_name user_name in
  at_most_one_session db ->
  (forall old,
      hd_error (sessions user db) = Some old -> mssg_freq old = 3%Z ->
      let db' := db_after (handle_inbound_message "start 5 hours"
                             user_name space_name db) in
      (exists new, sessions user db' = [new] /\ mssg_freq new = 5%Z) /\
      ~ In old (active_loops db')) /\
  (forall mssg_text user_name' space_name',
      at_most_one_session
        (db_after (handle_inbound_message mssg_text user_name' space_name' db))) /\
  (forall u mssg_freq space_name',
      at_most_one_session
        (db_after (start_active_loop u mssg_freq space_name' db))) /\
  (forall u, at_most_one_session (db_after (end_active_loop u db))) /\
  (forall u text, at_most_one_session (db_after (log_user_response u text db))).
Proof.
  intros user Hinv.
  split; [|split; [|split; [|split]]].
  - intros old Hold Hfreq db'. subst db'.
    rewrite (handle_start "start 5 hours" _ _ _ ["5"; "hours"] eq_refl).
    cbv beta iota.
    change (PyStr.isdigit "5" || negb ("hours" =? "hours")) with true. cbv iota.
    fold user. split.
    + eexists; split.
      * apply (start_active_loop_session user "5" space_name _ 5%Z); [|reflexivity].
        rewrite sessions_resolved. apply Hinv.
      * reflexivity.
    + rewrite start_active_loop_eq.
      change (PyStr.int "5") with (@inr exn Z 5%Z). cbv iota.
      rewrite db_after_pair. simpl active_loops.
      intros Hin. apply in_app_or in Hin as [Hin|[Hin|[]]].
      * unfold cleared in Hin. rewrite sessions_resolved, Hold in Hin.
        simpl in Hin. apply filter_In in Hin as [_ Hpk].
        now rewrite N.eqb_refl in Hpk.
      * rewrite <- Hin in Hfreq. discriminate.
  - intros. now apply handle_keeps_invariant.
  - intros. now apply start_keeps_invariant.
  - intros. now apply end_keeps_invariant.
  - intros. exact Hinv.
Qed.

Lemma C5_restart_keeps_one_session_witness :
  let db' := db_after (handle_inbound_message "start 5 hours"
                         "users/1" "spaces/A" in_session_3) in
  (exists new, sessions alice db' = [new] /\ mssg_freq new = 5%Z) /\
  ~ In (mkActiveLoops 1 alice 3 (-3)) (active_loops db').
Proof.
  apply (C5_restart_keeps_one_session "users/1" "spaces/A" in_session_3
           in_session_3_invariant); reflexivity.
Defined.

(** C6.  For a user with an active session, [stop] leaves the user without
    one and answers the session-end template with the summary link put in
    for [%s]; a second [stop] right after answers the no-session reply and
    the user is still without a session. *)
Theorem C6_stop_then_stop user_name space_name db :
  let user := mkUser space_name user_name in
  at_most_one_session db ->
  InSession user db ->
  let r1 := handle_inbound_message "stop" user_name space_name db in
  let r2 := handle_inbound_message "stop" user_name space_name (db_after r1) in
  NoSession user (db_after r1) /\
  outcome r1 = PyStr.format SESSION_END "google.com" /\
  outcome r1 =
    inr "Working session has ended! See a summary of your work here: google.com" /\
  outcome r2 = inr "I can't believe you've done this" /\
  NoSession user (db_after r2).
Proof.
  intros user Hinv Hin r1 r2.
  assert (H1 : NoSession user (db_after r1) /\
               outcome r1 = inr "Working session has ended! See a summary of your work here: google.com").
  { subst r1 r2. rewrite (handle_stop "stop" _ _ _ [] eq_refl). cbv beta iota.
    cbn [length Nat.eqb orb].
    fold user. rewrite end_active_loop_eq.
    destruct (hd_error (sessions user (resolved user_name space_name db)))
      as [row|] eqn:E.
    - split; [|reflexivity]. rewrite db_after_pair.
      apply sessions_delete_found; [|exact E].
      rewrite sessions_resolved. apply Hinv.
    - rewrite sessions_resolved in E. unfold InSession in Hin.
      destruct (sessions user db); [now elim Hin | discriminate]. }
  destruct H1 as [Hno Hout].
  assert (H2 : outcome r2 = inr "I can't believe you've done this" /\
               NoSession user (db_after r2)).
  { subst r2. rewrite (handle_stop "stop" _ _ _ [] eq_refl). cbv beta iota.
    cbn [length Nat.eqb orb].
    fold user. rewrite end_active_loop_eq, sessions_resolved, Hno.
    cbn [hd_error].
    split; [reflexivity|]. rewrite db_after_pair.
    unfold NoSession. now rewrite sessions_resolved. }
  destruct H2 as [Hout2 Hno2].
  repeat split; try assumption.
Qed.

Lemma C6_stop_then_stop_witness :
  let r1 := handle_inbound_message "stop" "users/1" "spaces/A" in_session_3 in
  let r2 := handle_inbound_message "stop" "users/1" "spaces/A" (db_after r1) in
  NoSession alice (db_after r1) /\
  outcome r1 = PyStr.format SESSION_END "google.com" /\
  outcome r1 =
    inr "Working session has ended! See a summary of your work here: google.com" /\
  outcome r2 = inr "I can't believe you've done this" /\
  NoSession alice (db_after r2).
Proof.
  apply (C6_stop_then_stop "users/1" "spaces/A" in_session_3
           in_session_3_invariant).
  discriminate.
Defined.

(** C7 (the code departs from the claim).  The claim: for a user with an
    active session, a message that starts with neither [start] nor [stop]
    creates a LoggedResponse with the text and is answered with the
    acknowledgment.  The code: the acknowledgment is returned, but
    [log_user_response] writes nothing; the database is the one left by
    resolving the user, with the table of responses as it was. *)
Theorem C7_log_stores_nothing mssg_text user_name space_name db first rest :
  PyStr.split mssg_text = first :: rest ->
  first <> "start" -> first <> "stop" ->
  let user := mkUser space_name user_name in
  InSession user db ->
  let r := handle_inbound_message mssg_text user_name space_name db in
  outcome r = inr "Response has been logged!" /\
  db_after r = resolved user_name space_name db /\
  user_responses (db_after r) = user_responses db.
Proof.
  intros Hs Hstart Hstop user Hin r. subst r.
  rewrite (handle_other _ _ _ _ first rest Hs Hstart Hstop).
  rewrite sessions_resolved. unfold InSession in Hin. fold user.
  destruct (sessions user db) as [|row l]; [now elim Hin|].
  cbn [hd_error truthy]. rewrite db_after_pair.
  repeat split. apply resolved_tables.
Qed.

Lemma C7_log_stores_nothing_witness :
  let r := handle_inbound_message "foo bar baz" "users/1" "spaces/A" in_session_3 in
  outcome r = inr "Response has been logged!" /\
  db_after r = resolved "users/1" "spaces/A" in_session_3 /\
  user_responses (db_after r) = user_responses in_session_3.
Proof.
  apply (C7_log_stores_nothing "foo bar baz" "users/1" "spaces/A" in_session_3
           "foo" ["bar"; "baz"]); try reflexivity; discriminate.
Defined.

(** C8.  For a user without a session, a message that starts with neither
    [start] nor [stop] is answered with the invalid-command string; the
    user is still without a session, and the tables of sessions and of
    responses are as before. *)
Theorem C8_other_without_session mssg_text user_name space_name db first rest :
  PyStr.split mssg_text = first :: rest ->
  first <> "start" -> first <> "stop" ->
  let user := mkUser space_name user_name in
  NoSession user db ->
  let r := handle_inbound_message mssg_text user_name space_name db in
  outcome r = inr COMMAND_ERROR /\
  NoSession user (db_after r) /\
  active_loops (db_after r) = active_loops db /\
  user_responses (db_after r) = user_responses db.
Proof.
  intros Hs Hstart Hstop user Hno r. subst r.
  rewrite (handle_other _ _ _ _ first rest Hs Hstart Hstop).
  rewrite sessions_resolved. fold user. rewrite Hno.
  cbn [hd_error truthy]. rewrite db_after_pair.
  unfold NoSession. rewrite sessions_resolved.
  repeat split; try assumption; apply resolved_tables.
Qed.

Lemma C8_other_without_session_witness :
  let r := handle_inbound_message "foo bar baz" "users/1" "spaces/A" empty_db in
  outcome r = inr COMMAND_ERROR /\
  NoSession alice (db_after r) /\
  active_loops (db_after r) = active_loops empty_db /\
  user_responses (db_after r) = user_responses empty_db.
Proof.
  apply (C8_other_without_session "foo bar baz" "users/1" "spaces/A" empty_db
           "foo" ["bar"; "baz"]); try reflexivity; discriminate.
Defined.

(** ** Frequencies read by [int] *)

Lemma isdecimal_char_value c :
  PyStr.isdecimal_char c = true -> (0 <= PyStr.digit_value c)%Z.
Proof.
  unfold PyStr.isdecimal_char, PyStr.digit_value. cbv zeta.
  rewrite andb_true_iff, !N.leb_le. lia.
Qed.

Lemma int_digits_nonneg s : forall acc prev n,
  (0 <= acc)%Z -> PyStr.int_digits acc prev s = Some n -> (0 <= n)%Z.
Proof.
  induction s as [|c s IH]; intros acc prev n Hacc; cbn [PyStr.int_digits].
  - destruct prev; [intros [= <-]; exact Hacc | discriminate].
  - destruct (PyStr.isdecimal_char c) eqn:Hc.
    + apply IH. pose proof (isdecimal_char_value c Hc). lia.
    + destruct (PyStr.code c =? 95)%N; [|discriminate].
      destruct prev; [apply IH; exact Hacc | discriminate].
Qed.

Lemma isdigit_char_not_sign c :
  PyStr.isdigit_char c = true ->
  (PyStr.code c =? 45)%N = false /\ (PyStr.code c =? 43)%N = false.
Proof.
  unfold PyStr.isdigit_char, PyStr.isdecimal_char. cbv zeta.
  generalize (PyStr.code c); intros n.
  rewrite !orb_true_iff, andb_true_iff, !N.leb_le, !N.eqb_eq, !N.eqb_neq. lia.
Qed.

(** A digit string read by [int] is not negative. *)
Lemma isdigit_int_nonneg s n :
  PyStr.isdigit s = true -> PyStr.int s = inr n -> (0 <= n)%Z.
Proof.
  destruct s as [|c s]; [discriminate|].
  unfold PyStr.isdigit, PyStr.int. cbn [PyStr.all_chars].
  rewrite andb_true_iff. intros [Hc _].
  destruct (isdigit_char_not_sign c Hc) as [-> ->]. cbn [snd fst].
  destruct (PyStr.int_digits 0 false (String c s)) as [m|] eqn:E; [|discriminate].
  intros H. assert (Hn : n = (1 * m)%Z) by congruence.
  apply int_digits_nonneg in E; lia.
Qed.

(** C9, the claim as stated, fails: [start 0 hours] is dispatched and
    creates a session whose ping frequency is 0, not strictly positive. *)
Lemma C9_start_0_hours_counterexample :
  let r := handle_inbound_message "start 0 hours" "users/1" "spaces/A" empty_db in
  exists row,
    In row (active_loops (db_after r)) /\
    ~ In row (active_loops empty_db) /\
    mssg_freq row = 0%Z /\
    ~ (0 < mssg_freq row)%Z.
Proof.
  exists (mkActiveLoops 1 alice 0 0). cbv zeta.
  repeat split.
  - left; reflexivity.
  - intros [].
  - simpl; lia.
Qed.

(** C9, amended.  Every session created by a dispatched [start <N> hours]
    has a ping frequency that is not negative, and its countdown seed is
    the negation of that frequency. *)
Theorem C9_created_session_frequency
  mssg_text user_name space_name db m1 row :
  PyStr.split mssg_text = ["start"; m1; "hours"] ->
  let r := handle_inbound_message mssg_text user_name space_name db in
  In row (active_loops (db_after r)) ->
  ~ In row (active_loops db) ->
  (0 <= mssg_freq row)%Z /\ mins_to_mssg row = (- mssg_freq row)%Z.
Proof.
  intros Hs r. subst r.
  rewrite (handle_start _ _ _ _ _ Hs). cbv beta iota.
  change ("hours" =? "hours") with true. cbn [negb]. rewrite orb_false_r.
  destruct (resolved_tables user_name space_name db) as [Hal _].
  destruct (PyStr.isdigit m1) eqn:Hd.
  - rewrite start_active_loop_eq.
    destruct (PyStr.int m1) as [e|n] eqn:Hn; rewrite db_after_pair.
    + intros Hin Hnew. elim Hnew. rewrite <- Hal. eapply cleared_rows, Hin.
    + unfold db_after, ORM.save. cbn [fst active_loops]. intros Hin Hnew.
      apply in_app_or in Hin as [Hin|[Hin|[]]].
      * elim Hnew. rewrite <- Hal. eapply cleared_rows, Hin.
      * subst row. cbn [mssg_freq mins_to_mssg]. split; [|lia].
        now apply (isdigit_int_nonneg m1).
  - rewrite db_after_pair, Hal. intros Hin Hnew. now elim Hnew.
Qed.

Lemma C9_created_session_frequency_witness :
  (0 <= mssg_freq (mkActiveLoops 1 alice 7 (-7)))%Z /\
  mins_to_mssg (mkActiveLoops 1 alice 7 (-7)) =
  (- mssg_freq (mkActiveLoops 1 alice 7 (-7)))%Z.
Proof.
  apply (C9_created_session_frequency "start 7 hours" "users/1" "spaces/A"
           empty_db "7" (mkActiveLoops 1 alice 7 (-7))).
  - reflexivity.
  - left; reflexivity.
  - intros [].
Defined.


(** ** Further properties of the dispatcher *)

(** Case analysis along the branches of [handle_inbound_message]: no
    token, first token [start], first token [stop], any other. *)
Ltac by_branch Hs Hstart Hstop :=
  match goal with
  | |- context [handle_inbound_message ?t ?u ?s ?db] =>
      let tok := fresh "tok" in
      let rest := fresh "rest" in
      destruct (PyStr.split t) as [|tok rest] eqn:Hs;
      [ rewrite (handle_no_token t u s db Hs)
      | destruct (String.eqb_spec tok "start") as [->|Hstart];
        [ rewrite (handle_start t u s db rest Hs)
        | destruct (String.eqb_spec tok "stop") as [->|Hstop];
          [ rewrite (handle_stop t u s db rest Hs)
          | rewrite (handle_other t u s db tok rest Hs Hstart Hstop) ] ] ]
  end.

Lemma int_error s e : PyStr.int s = inl e -> e = ValueError.
Proof.
  unfold PyStr.int. destruct (PyStr.int_digits _ _ _); [discriminate|].
  now intros [= <-].
Qed.

(** [start_active_loop] never answers. *)
Lemma start_active_loop_raises user mssg_freq space_name db :
  outcome (start_active_loop user mssg_freq space_name db) = inl TypeError \/
  outcome (start_active_loop user mssg_freq space_name db) = inl ValueError.
Proof.
  rewrite start_active_loop_eq.
  destruct (PyStr.int mssg_freq) as [e|n] eqn:E; [right | left; reflexivity].
  apply int_error in E. now subst e.
Qed.

(** X1.  Whatever the message and the database, a reply of
    [handle_inbound_message] is one of four texts: the invalid-command
    string, the no-session reply of [end_active_loop], the session-end
    text with the summary link, or the acknowledgment of
    [log_user_response].  The session-begin text is never among them. *)
Theorem X1_reply_is_one_of_four mssg_text user_name space_name db reply :
  outcome (handle_inbound_message mssg_text user_name space_name db) = inr reply ->
  (reply = COMMAND_ERROR \/
   reply = "I can't believe you've done this" \/
   reply = "Working session has ended! See a summary of your work here: google.com" \/
   reply = "Response has been logged!") /\
  reply <> SESSION_BEGIN.
Proof.
  intros H.
  assert (Hfour : reply = COMMAND_ERROR \/
                  reply = "I can't believe you've done this" \/
                  reply = "Working session has ended! See a summary of your work here: google.com" \/
                  reply = "Response has been logged!").
  { revert H. by_branch Hs Hstart Hstop.
    - discriminate.
    - destruct rest as [|m1 [|m2 [|m3 rest]]];
        try (intros [= <-]; now left).
      destruct (_ || _); [|intros [= <-]; now left].
      destruct (start_active_loop_raises
                  (mkUser space_name user_name) m1 space_name
                  (resolved user_name space_name db)) as [E|E];
        rewrite E; discriminate.
    - destruct (_ || _); [|intros [= <-]; now left].
      rewrite end_active_loop_eq.
      destruct (hd_error _); intros [= <-]; auto.
    - destruct (truthy _); intros [= <-]; auto. }
  split; [exact Hfour|].
  destruct Hfour as [-> | [-> | [-> | ->]]]; discriminate.
Qed.

Lemma X1_reply_is_one_of_four_witness :
  ("Response has been logged!" = COMMAND_ERROR \/
   "Response has been logged!" = "I can't believe you've done this" \/
   "Response has been logged!" =
     "Working session has ended! See a summary of your work here: google.com" \/
   "Response has been logged!" = "Response has been logged!") /\
  "Response has been logged!" <> SESSION_BEGIN.
Proof.
  apply (X1_reply_is_one_of_four "did the report" "users/1" "spaces/A"
           in_session_3).
  reflexivity.
Defined.

(** X2.  An exception escapes [handle_inbound_message] exactly when the
    message has no token, or has three tokens, the first [start], and
    passes the test of the start branch (second token a digit string, or
    third token other than [hours]).  Every message with another first
    token, and every refused start, is answered. *)
Theorem X2_raises_iff mssg_text user_name space_name db :
  (exists e,
      outcome (handle_inbound_message mssg_text user_name space_name db) = inl e)
  <->
  (PyStr.split mssg_text = [] \/
   exists m1 m2,
     PyStr.split mssg_text = ["start"; m1; m2] /\
     (PyStr.isdigit m1 = true \/ m2 <> "hours")).
Proof.
  by_branch Hs Hstart Hstop.
  - split; [now left | intros _; now exists IndexError].
  - destruct rest as [|m1 [|m2 [|m3 rest]]];
      try (split; [intros [e He]; discriminate
                  | intros [H|(a & b & H & _)]; discriminate]).
    destruct (PyStr.isdigit m1) eqn:Hd; cbn [orb].
    + split.
      * intros _. right. exists m1, m2. auto.
      * intros _.
        destruct (start_active_loop_raises
                    (mkUser space_name user_name) m1 space_name
                    (resolved user_name space_name db)) as [E|E];
          rewrite E; eauto.
    + destruct (String.eqb_spec m2 "hours") as [->|Hne]; cbn [negb].
      * split; [intros [e He]; discriminate|].
        intros [H|(a & b & H & [Ha|Hb])]; try discriminate.
        -- injection H as H1 H2. subst a b. congruence.
        -- injection H as H1 H2. subst a b. now elim Hb.
      * split.
        -- intros _. right. exists m1, m2. auto.
        -- intros _.
           destruct (start_active_loop_raises
                       (mkUser space_name user_name) m1 space_name
                       (resolved user_name space_name db)) as [E|E];
             rewrite E; eauto.
  - split.
    + destruct (_ || _).
      * rewrite end_active_loop_eq. destruct (hd_error _); intros [e He]; discriminate.
      * intros [e He]; discriminate.
    + intros [H|(a & b & H & _)]; discriminate.
  - split.
    + destruct (truthy _); intros [e He]; discriminate.
    + intros [H|(a & b & H & _)]; [discriminate|].
      injection H as H _. now elim Hstart.
Qed.

Lemma X2_raises_iff_witness :
  exists e,
    outcome (handle_inbound_message "start 9 days" "users/1" "spaces/A"
               empty_db) = inl e.
Proof.
  apply (X2_raises_iff "start 9 days" "users/1" "spaces/A" empty_db).
  right. exists "9", "days". split; [reflexivity | left; reflexivity].
Defined.

(** X3.  A call answered with the invalid-command string has written
    nothing but, possibly, the sender's [User] row: the database is the
    one left by [get_or_create], with sessions, responses and the key
    counter as before. *)
Theorem X3_refused_message_writes_nothing mssg_text user_name space_name db :
  let r := handle_inbound_message mssg_text user_name space_name db in
  outcome r = inr COMMAND_ERROR ->
  db_after r = resolved user_name space_name db /\
  active_loops (db_after r) = active_loops db /\
  user_responses (db_after r) = user_responses db /\
  next_pk (db_after r) = next_pk db.
Proof.
  intros r H.
  assert (E : db_after r = resolved user_name space_name db).
  { subst r. revert H. by_branch Hs Hstart Hstop.
    - discriminate.
    - destruct rest as [|m1 [|m2 [|m3 rest]]]; try reflexivity.
      destruct (_ || _); [|reflexivity].
      destruct (start_active_loop_raises
                  (mkUser space_name user_name) m1 space_name
                  (resolved user_name space_name db)) as [E|E];
        rewrite E; discriminate.
    - destruct (_ || _); [|reflexivity].
      rewrite end_active_loop_eq. destruct (hd_error _); discriminate.
    - destruct (truthy _); [discriminate | reflexivity]. }
  rewrite E. split; [reflexivity | apply resolved_tables].
Qed.

Lemma X3_refused_message_writes_nothing_witness :
  let r := handle_inbound_message "start 3 hours now" "users/1" "spaces/A"
             in_session_3 in
  db_after r = resolved "users/1" "spaces/A" in_session_3 /\
  active_loops (db_after r) = active_loops in_session_3 /\
  user_responses (db_after r) = user_responses in_session_3 /\
  next_pk (db_after r) = next_pk in_session_3.
Proof.
  apply (X3_refused_message_writes_nothing "start 3 hours now" "users/1"
           "spaces/A" in_session_3).
  reflexivity.
Defined.

Lemma cleared_tables user db :
  users (cleared user db) = users db /\
  user_responses (cleared user db) = user_responses db /\
  next_pk (cleared user db) = next_pk db.
Proof.
  unfold cleared. destruct (hd_error (sessions user db)); simpl; auto.
Qed.

(** X4.  [start_active_loop] deletes the user's session before it reads
    the frequency: when a start is accepted with a frequency token [int]
    rejects, the call raises [ValueError] and the user is left without
    any session, also when one was running. *)
Theorem X4_failed_start_drops_session
  mssg_text user_name space_name db m1 m2 :
  PyStr.split mssg_text = ["start"; m1; m2] ->
  PyStr.isdigit m1 || negb (m2 =? "hours") = true ->
  PyStr.int m1 = inl ValueError ->
  at_most_one_session db ->
  let user := mkUser space_name user_name in
  let r := handle_inbound_message mssg_text user_name space_name db in
  outcome r = inl ValueError /\ NoSession user (db_after r).
Proof.
  intros Hs Hv Hint Hinv user r. subst r.
  rewrite (handle_start _ _ _ _ _ Hs), Hv, start_active_loop_eq, Hint.
  split; [reflexivity|]. rewrite db_after_pair.
  apply sessions_cleared. rewrite sessions_resolved. apply Hinv.
Qed.

Lemma X4_failed_start_drops_session_witness :
  let r := handle_inbound_message "start soon ok" "users/1" "spaces/A"
             in_session_3 in
  outcome r = inl ValueError /\ NoSession alice (db_after r).
Proof.
  apply (X4_failed_start_drops_session "start soon ok" "users/1" "spaces/A"
           in_session_3 "soon" "ok"); try reflexivity.
  exact in_session_3_invariant.
Defined.

(** X5.  An accepted start whose frequency token [int] reads as [n]
    leaves the user with exactly one session, whatever was there before:
    the new row, saved under the next primary key with frequency [n] and
    countdown [-n]; the key counter advances by one, and the call ends in
    the [TypeError] of the reply template. *)
Theorem X5_start_saves_exactly_one_row
  mssg_text user_name space_name db m1 m2 n :
  PyStr.split mssg_text = ["start"; m1; m2] ->
  PyStr.isdigit m1 || negb (m2 =? "hours") = true ->
  PyStr.int m1 = inr n ->
  at_most_one_session db ->
  let user := mkUser space_name user_name in
  let r := handle_inbound_message mssg_text user_name space_name db in
  sessions user (db_after r) = [mkActiveLoops (next_pk db) user n (- n)] /\
  next_pk (db_after r) = N.succ (next_pk db) /\
  outcome r = inl TypeError.
Proof.
  intros Hs Hv Hint Hinv user r. subst r.
  rewrite (handle_start _ _ _ _ _ Hs), Hv. fold user.
  assert (Hlen : (length (sessions user (resolved user_name space_name db)) <= 1)%nat).
  { rewrite sessions_resolved. apply Hinv. }
  rewrite (start_active_loop_session user m1 space_name _ n Hlen Hint).
  rewrite start_active_loop_eq, Hint, db_after_pair.
  destruct (cleared_tables user (resolved user_name space_name db)) as (_ & _ & Hpk).
  destruct (resolved_tables user_name space_name db) as (_ & _ & Hpk').
  cbn [db_after fst ORM.save next_pk]. rewrite Hpk, Hpk'.
  split; [|split; reflexivity].
  repeat f_equal; lia.
Qed.

Lemma X5_start_saves_exactly_one_row_witness :
  let r := handle_inbound_message "start 12 hours" "users/1" "spaces/A"
             in_session_3 in
  sessions alice (db_after r) = [mkActiveLoops 2 alice 12 (-12)] /\
  next_pk (db_after r) = 3%N /\
  outcome r = inl TypeError.
Proof.
  apply (X5_start_saves_exactly_one_row "start 12 hours" "users/1" "spaces/A"
           in_session_3 "12" "hours" 12%Z); try reflexivity.
  exact in_session_3_invariant.
Defined.

(** ** Tokens and decimal frequencies *)









(** X7.  The acknowledgment of [log_user_response] is returned exactly
    for a message whose first token is neither [start] nor [stop], sent by
    a user who has a session.  A text that begins with the word [start] or
    [stop] is never taken as a task report, even during a session. *)
Theorem X7_acknowledged_iff mssg_text user_name space_name db :
  let user := mkUser space_name user_name in
  outcome (handle_inbound_message mssg_text user_name space_name db) =
    inr "Response has been logged!"
  <->
  exists tok rest,
    PyStr.split mssg_text = tok :: rest /\
    tok <> "start" /\ tok <> "stop" /\ InSession user db.
Proof.
  intros user. by_branch Hs Hstart Hstop.
  - split; [discriminate | intros (t & l & H & _); discriminate].
  - split.
    + destruct rest as [|m1 [|m2 [|m3 rest]]]; try discriminate.
      destruct (_ || _); [|discriminate].
      destruct (start_active_loop_raises
                  (mkUser space_name user_name) m1 space_name
                  (resolved user_name space_name db)) as [E|E];
        rewrite E; discriminate.
    + intros (t & l & H & Ht & _). injection H as H _. now elim Ht.
  - split.
    + destruct (_ || _); [|discriminate].
      rewrite end_active_loop_eq. destruct (hd_error _); discriminate.
    + intros (t & l & H & _ & Ht & _). injection H as H _. now elim Ht.
  - rewrite sessions_resolved. fold user. unfold InSession.
    destruct (sessions user db) as [|row l] eqn:E; cbn [hd_error truthy].
    + split; [discriminate | intros (t & l & _ & _ & _ & H); now elim H].
    + split; [intros _ | reflexivity].
      exists tok, rest. repeat split; auto. discriminate.
Qed.

Lemma X7_acknowledged_iff_witness :
  outcome (handle_inbound_message "stopped the old server" "users/1"
             "spaces/A" in_session_3) = inr "Response has been logged!".
Proof.
  apply (X7_acknowledged_iff "stopped the old server" "users/1" "spaces/A"
           in_session_3).
  exists "stopped", ["the"; "old"; "server"].
  repeat split; discriminate.
Defined.

(** ** Primary keys and the rows of other users *)

Lemma pk_injective l a b :
  NoDup (map pk l) -> In a l -> In b l -> pk a = pk b -> a = b.
Proof.
  induction l as [|x l IH]; cbn [map]; [intros _ []|].
  intros Hnd [->|Ha] [->|Hb] E; try reflexivity.
  - apply NoDup_cons_iff in Hnd as [Hx _]. elim Hx.
    rewrite E. now apply in_map.
  - apply NoDup_cons_iff in Hnd as [Hx _]. elim Hx.
    rewrite <- E. now apply in_map.
  - apply NoDup_cons_iff in Hnd as [_ Hnd]. now apply IH.
Qed.

Lemma filter_all {A} (p : A -> bool) l :
  (forall x, In x l -> p x = true) -> filter p l = l.
Proof.
  induction l as [|a l IH]; cbn [filter]; [reflexivity|].
  intros H. rewrite (H a (or_introl eq_refl)). f_equal.
  apply IH. intros x Hx. apply H. now right.
Qed.

Lemma NoDup_map_filter {A B} (f : A -> B) (p : A -> bool) l :
  NoDup (map f l) -> NoDup (map f (filter p l)).
Proof.
  induction l as [|a l IH]; cbn [map filter]; [auto|].
  intros Hnd. apply NoDup_cons_iff in Hnd as [Ha Hnd].
  destruct (p a); cbn [map]; [|now apply IH].
  apply NoDup_cons; [|now apply IH].
  intros Hin. apply Ha. apply in_map_iff in Hin as (x & Hx & Hin).
  apply filter_In in Hin as [Hin _]. apply in_map_iff. eauto.
Qed.

(** Deleting a row of one user leaves the rows of every other user, when
    primary keys are unique. *)
Lemma sessions_delete_other u v row db :
  NoDup (map pk (active_loops db)) ->
  In row (sessions u db) -> v <> u ->
  sessions v (db_after (ORM.delete row db)) = sessions v db.
Proof.
  intros Hnd Hrow Hne. rewrite sessions_delete. apply filter_all.
  intros x Hx. apply negb_true_iff, N.eqb_neq. intros E.
  unfold sessions, ORM.filter_user in Hrow, Hx.
  apply filter_In in Hrow as [Hrow Hu], Hx as [Hx Hv].
  assert (x = row) by (eapply pk_injective; eauto). subst x.
  apply User_eqb_eq in Hu, Hv. congruence.
Qed.

Lemma sessions_cleared_other u v db :
  NoDup (map pk (active_loops db)) -> v <> u ->
  sessions v (cleared u db) = sessions v db.
Proof.
  intros Hnd Hne. unfold cleared.
  destruct (hd_error (sessions u db)) as [row|] eqn:E; [|reflexivity].
  apply sessions_delete_other with (u := u); auto.
  destruct (sessions u db); [discriminate|]. injection E as ->. now left.
Qed.

Lemma sessions_save_other u v freq mins db :
  v <> u -> sessions v (db_after (ORM.save u freq mins db)) = sessions v db.
Proof.
  intros Hne. rewrite sessions_save.
  destruct (User_eqb u v) eqn:E; [|apply app_nil_r].
  apply User_eqb_eq in E. congruence.
Qed.

Lemma cleared_active_loops u db :
  NoDup (map pk (active_loops db)) ->
  NoDup (map pk (active_loops (cleared u db))).
Proof.
  intros Hnd. unfold cleared.
  destruct (hd_error (sessions u db)); [|exact Hnd].
  cbn [db_after fst ORM.delete active_loops]. now apply NoDup_map_filter.
Qed.

(** X8.  A message changes the sessions of its sender only: when primary
    keys are unique, the [ActiveLoops] rows of every other user are the
    same after the call as before, whatever the message does and whether
    or not it raises. *)
Theorem X8_other_users_untouched mssg_text user_name space_name db v :
  NoDup (map pk (active_loops db)) ->
  v <> mkUser space_name user_name ->
  sessions v (db_after (handle_inbound_message mssg_text user_name space_name db))
  = sessions v db.
Proof.
  intros Hnd Hne.
  assert (Hnd1 : NoDup (map pk (active_loops (resolved user_name space_name db)))).
  { destruct (resolved_tables user_name space_name db) as [-> _]. exact Hnd. }
  rewrite <- (sessions_resolved v user_name space_name db).
  by_branch Hs Hstart Hstop.
  - reflexivity.
  - destruct rest as [|m1 [|m2 [|m3 rest]]]; try reflexivity.
    destruct (_ || _); [|reflexivity].
    rewrite start_active_loop_eq.
    destruct (PyStr.int m1); rewrite db_after_pair.
    + now apply sessions_cleared_other.
    + rewrite sessions_save_other by exact Hne.
      now apply sessions_cleared_other.
  - destruct (_ || _); [|reflexivity].
    rewrite end_active_loop_eq.
    destruct (hd_error _) as [row|] eqn:E; rewrite db_after_pair; [|reflexivity].
    apply sessions_delete_other with (u := mkUser space_name user_name); auto.
    destruct (sessions _ _); [discriminate|]. injection E as ->. now left.
  - destruct (truthy _); reflexivity.
Qed.

Lemma two_sessions_keys : keys_fresh two_sessions.
Proof.
  split.
  - simpl. repeat constructor; simpl; intuition discriminate.
  - simpl. intros row [<-|[<-|[]]]; simpl; lia.
Qed.

Lemma X8_other_users_untouched_witness :
  sessions bob (db_after (handle_inbound_message "stop" "users/1" "spaces/A"
                            two_sessions))
  = sessions bob two_sessions.
Proof.
  apply (X8_other_users_untouched "stop" "users/1" "spaces/A" two_sessions bob).
  - exact (proj1 two_sessions_keys).
  - discriminate.
Defined.

Lemma delete_keeps_keys row db :
  keys_fresh db -> keys_fresh (db_after (ORM.delete row db)).
Proof.
  intros [Hnd Hlt]. split; cbn [db_after fst ORM.delete active_loops next_pk].
  - now apply NoDup_map_filter.
  - intros x Hx. apply filter_In in Hx as [Hx _]. now apply Hlt.
Qed.

Lemma save_keeps_keys u freq mins db :
  keys_fresh db -> keys_fresh (db_after (ORM.save u freq mins db)).
Proof.
  intros [Hnd Hlt]. split; cbn [db_after fst ORM.save active_loops next_pk].
  - rewrite map_app. cbn [map pk].
    rewrite <- (rev_involutive (map pk (active_loops db) ++ [next_pk db])).
    apply NoDup_rev. rewrite rev_app_distr. cbn [rev app].
    apply NoDup_cons.
    + rewrite <- in_rev. intros Hin.
      apply in_map_iff in Hin as (x & Hx & Hin).
      apply Hlt in Hin. lia.
    + now apply NoDup_rev.
  - intros x Hx. apply in_app_or in Hx as [Hx|[<-|[]]].
    + apply Hlt in Hx. lia.
    + cbn [pk]. lia.
Qed.

Lemma cleared_keeps_keys u db : keys_fresh db -> keys_fresh (cleared u db).
Proof.
  intros H. unfold cleared.
  destruct (hd_error (sessions u db)); [now apply delete_keeps_keys | exact H].
Qed.

Lemma resolved_keeps_keys user_name space_name db :
  keys_fresh db -> keys_fresh (resolved user_name space_name db).
Proof.
  unfold keys_fresh.
  destruct (resolved_tables user_name space_name db) as (-> & _ & ->). auto.
Qed.

(** The dispatcher keeps the keys unique and below the counter. *)
Lemma handle_keeps_keys mssg_text user_name space_name db :
  keys_fresh db ->
  let db' := db_after (handle_inbound_message mssg_text user_name space_name db) in
  keys_fresh db' /\ (next_pk db <= next_pk db')%N.
Proof.
  intros H db'. subst db'.
  pose proof (resolved_keeps_keys user_name space_name db H) as H1.
  destruct (resolved_tables user_name space_name db) as (_ & _ & Hpk).
  rewrite <- Hpk.
  by_branch Hs Hstart Hstop.
  - split; [exact H1 | reflexivity].
  - destruct rest as [|m1 [|m2 [|m3 rest]]];
      try (split; [exact H1 | reflexivity]).
    destruct (_ || _); [|split; [exact H1 | reflexivity]].
    rewrite start_active_loop_eq.
    destruct (cleared_tables (mkUser space_name user_name)
                (resolved user_name space_name db)) as (_ & _ & Hc).
    destruct (PyStr.int m1); rewrite db_after_pair.
    + split; [now apply cleared_keeps_keys | rewrite Hc; reflexivity].
    + split; [now apply save_keeps_keys, cleared_keeps_keys|].
      cbn [db_after fst ORM.save next_pk]. rewrite Hc. lia.
  - destruct (_ || _); [|split; [exact H1 | reflexivity]].
    rewrite end_active_loop_eq.
    destruct (hd_error _); rewrite db_after_pair.
    + split; [now apply delete_keeps_keys | reflexivity].
    + split; [exact H1 | reflexivity].
  - destruct (truthy _); rewrite db_after_pair; split; (exact H1 || reflexivity).
Qed.



(** X10.  Starting and then stopping gives the table back: for a user
    without a session, an accepted start with a frequency [int] reads,
    followed by [stop], leaves [ActiveLoops] exactly as it was before the
    two messages, and the [stop] is answered with the session-end text.
    The keys of the table must be below the counter, as every call keeps
    them. *)
Theorem X10_start_then_stop_restores
  mssg_text user_name space_name db m1 m2 n :
  PyStr.split mssg_text = ["start"; m1; m2] ->
  PyStr.isdigit m1 || negb (m2 =? "hours") = true ->
  PyStr.int m1 = inr n ->
  keys_fresh db ->
  let user := mkUser space_name user_name in
  NoSession user db ->
  let db1 := db_after (handle_inbound_message mssg_text user_name space_name db) in
  let r2 := handle_inbound_message "stop" user_name space_name db1 in
  active_loops (db_after r2) = active_loops db /\
  NoSession user (db_after r2) /\
  outcome r2 =
    inr "Working session has ended! See a summary of your work here: google.com".
Proof.
  intros Hs Hv Hint [_ Hlt] user Hno db1 r2.
  destruct (resolved_tables user_name space_name db) as (Hal & _ & Hpk).
  assert (Hc : cleared user (resolved user_name space_name db) =
               resolved user_name space_name db).
  { unfold cleared. rewrite sessions_resolved, Hno. reflexivity. }
  assert (E1 : db1 = db_after (ORM.save user n (-1 * n)
                                 (resolved user_name space_name db))).
  { subst db1. rewrite (handle_start _ _ _ _ _ Hs), Hv. fold user.
    now rewrite start_active_loop_eq, Hint, db_after_pair, Hc. }
  assert (Hs1 : sessions user (resolved user_name space_name db1) =
                [mkActiveLoops (next_pk db) user n (-1 * n)]).
  { rewrite sessions_resolved, E1, sessions_save, sessions_resolved, Hno.
    now rewrite User_eqb_refl, Hpk. }
  destruct (resolved_tables user_name space_name db1) as (Hal1 & _ & _).
  assert (Hrows : active_loops db1 =
                  (active_loops db ++ [mkActiveLoops (next_pk db) user n (-1 * n)])%list).
  { rewrite E1. cbn [db_after fst ORM.save active_loops]. now rewrite Hal, Hpk. }
  subst r2.
  rewrite (handle_stop "stop" _ _ _ [] eq_refl). cbn [length Nat.eqb orb].
  fold user. rewrite end_active_loop_eq, Hs1. cbn [hd_error].
  rewrite db_after_pair.
  assert (Hback : active_loops
                    (db_after (ORM.delete (mkActiveLoops (next_pk db) user n (-1 * n))
                                 (resolved user_name space_name db1)))
                  = active_loops db).
  { cbn [db_after fst ORM.delete active_loops pk].
    rewrite Hal1, Hrows, filter_app. cbn [filter pk].
    rewrite N.eqb_refl. cbn [negb]. rewrite app_nil_r.
    apply filter_all. intros x Hx. apply negb_true_iff, N.eqb_neq.
    apply Hlt in Hx. lia. }
  split; [exact Hback|]. split; [|reflexivity].
  unfold NoSession, sessions, ORM.filter_user. rewrite Hback. exact Hno.
Qed.

Lemma X10_start_then_stop_restores_witness :
  let db1 := db_after (handle_inbound_message "start 2 hours" "users/9"
                         "spaces/C" two_sessions) in
  let r2 := handle_inbound_message "stop" "users/9" "spaces/C" db1 in
  active_loops (db_after r2) = active_loops two_sessions /\
  NoSession (mkUser "spaces/C" "users/9") (db_after r2) /\
  outcome r2 =
    inr "Working session has ended! See a summary of your work here: google.com".
Proof.
  apply (X10_start_then_stop_restores "start 2 hours" "users/9" "spaces/C"
           two_sessions "2" "hours" 2%Z); try reflexivity.
  exact two_sessions_keys.
Defined.

(** ** The table of users *)

Lemma existsb_User_eqb u l : existsb (User_eqb u) l = true <-> In u l.
Proof.
  rewrite existsb_exists. split.
  - intros (x & Hx & E). apply User_eqb_eq in E. now subst x.
  - intros H. exists u. split; [exact H | apply User_eqb_refl].
Qed.

(** After resolving the user, no branch of the dispatcher writes the
    table of users. *)
Lemma handle_users mssg_text user_name space_name db :
  users (db_after (handle_inbound_message mssg_text user_name space_name db)) =
  users (resolved user_name space_name db).
Proof.
  by_branch Hs Hstart Hstop.
  - reflexivity.
  - destruct rest as [|m1 [|m2 [|m3 rest]]]; try reflexivity.
    destruct (_ || _); [|reflexivity].
    rewrite start_active_loop_eq.
    destruct (cleared_tables (mkUser space_name user_name)
                (resolved user_name space_name db)) as (Hu & _).
    destruct (PyStr.int m1); rewrite db_after_pair; [exact Hu|].
    cbn [db_after fst ORM.save users]. exact Hu.
  - destruct (_ || _); [|reflexivity].
    rewrite end_active_loop_eq. destruct (hd_error _); reflexivity.
  - destruct (truthy _); reflexivity.
Qed.

(** X11.  The dispatcher registers the sender before it looks at the
    message, so after every call, also one that raises or is refused, the
    sender has a [User] row.  A sender already in the table leaves it as it
    is; a new one is added at its end; no row is removed, and a table
    without duplicates stays without duplicates. *)
Theorem X11_sender_is_registered mssg_text user_name space_name db :
  let sender := mkUser space_name user_name in
  let db' := db_after (handle_inbound_message mssg_text user_name space_name db) in
  In sender (users db') /\
  (In sender (users db) -> users db' = users db) /\
  (~ In sender (users db) -> users db' = (users db ++ [sender])%list) /\
  (NoDup (users db) -> NoDup (users db')).
Proof.
  intros sender db'. subst db'. rewrite handle_users.
  unfold resolved, ORM.get_or_create. fold sender.
  destruct (existsb (User_eqb sender) (users db)) eqn:E;
    cbn [db_after fst users].
  - apply existsb_User_eqb in E. repeat split; auto. intros H; now elim H.
  - assert (Hn : ~ In sender (users db)).
    { intros H. apply existsb_User_eqb in H. congruence. }
    repeat split.
    + apply in_or_app. right. now left.
    + intros H. now elim Hn.
    + intros Hnd.
      rewrite <- (rev_involutive (users db ++ [sender])).
      apply NoDup_rev. rewrite rev_app_distr. cbn [rev app].
      apply NoDup_cons; [now rewrite <- in_rev | now apply NoDup_rev].
Qed.

Lemma X11_sender_is_registered_witness :
  users (db_after (handle_inbound_message "   " "users/2" "spaces/B"
                     fresh_alice)) = [alice; bob].
Proof.
  apply (X11_sender_is_registered "   " "users/2" "spaces/B" fresh_alice).
  intros [H|[]]. discriminate.
Defined.

(** ** White space around the message *)

Lemma split_from_spaces w : forall cur,
  PyStr.all_chars PyStr.isspace w = true ->
  PyStr.split_from cur w = PyStr.split_from cur EmptyString.
Proof.
  induction w as [|c w IH]; intros cur; cbn [PyStr.all_chars]; [reflexivity|].
  rewrite andb_true_iff. intros [Hc Hw].
  cbn [PyStr.split_from]. rewrite Hc.
  destruct cur; rewrite (IH None Hw); reflexivity.
Qed.

Lemma split_from_trailing s : forall cur w,
  PyStr.all_chars PyStr.isspace w = true ->
  PyStr.split_from cur (s ++ w) = PyStr.split_from cur s.
Proof.
  induction s as [|c s IH]; intros cur w Hw.
  - now apply split_from_spaces.
  - cbn [append PyStr.split_from].
    destruct (PyStr.isspace c), cur; rewrite IH by exact Hw; reflexivity.
Qed.

Lemma split_leading w s :
  PyStr.all_chars PyStr.isspace w = true ->
  PyStr.split (w ++ s) = PyStr.split s.
Proof.
  unfold PyStr.split.
  induction w as [|c w IH]; cbn [PyStr.all_chars append]; [reflexivity|].
  rewrite andb_true_iff. intros [Hc Hw].
  cbn [PyStr.split_from]. rewrite Hc. now apply IH.
Qed.

(** The dispatcher reads the text through its tokens only. *)
Lemma handle_same_tokens text text' user_name space_name db :
  PyStr.split text = PyStr.split text' ->
  handle_inbound_message text user_name space_name db =
  handle_inbound_message text' user_name space_name db.
Proof. intros H. unfold handle_inbound_message. now rewrite H. Qed.

(** X12.  White space before and after the message does not count: a
    text padded on either side with white-space characters (blanks, tabs,
    line ends) is handled exactly as the text itself, with the same reply
    or exception and the same database. *)
Theorem X12_padding_is_ignored before after mssg_text user_name space_name db :
  PyStr.all_chars PyStr.isspace before = true ->
  PyStr.all_chars PyStr.isspace after = true ->
  handle_inbound_message (before ++ mssg_text ++ after) user_name space_name db =
  handle_inbound_message mssg_text user_name space_name db.
Proof.
  intros Hb Ha. apply handle_same_tokens.
  rewrite (split_leading before _ Hb).
  unfold PyStr.split. now apply split_from_trailing.
Qed.

Lemma X12_padding_is_ignored_witness :
  handle_inbound_message ("  " ++ "stop" ++ " ") "users/1" "spaces/A" in_session_3 =
  handle_inbound_message "stop" "users/1" "spaces/A" in_session_3.
Proof.
  apply (X12_padding_is_ignored "  " " " "stop" "users/1" "spaces/A"
           in_session_3); reflexivity.
Defined.

(** ** The replies to [stop] and the rows [in_active_loop] finds *)

(** X13.  The session-end text is the reply exactly to a message whose
    first token is [stop], whatever follows it, from a user who has a
    session; the no-session reply of [end_active_loop] is given exactly to
    the single token [stop] from a user who has none.  With at most one
    session per user, the user is without a session after either reply. *)
Theorem X13_stop_replies mssg_text user_name space_name db :
  let user := mkUser space_name user_name in
  let r := handle_inbound_message mssg_text user_name space_name db in
  (outcome r =
     inr "Working session has ended! See a summary of your work here: google.com"
   <-> exists rest, PyStr.split mssg_text = "stop" :: rest /\ InSession user db) /\
  (outcome r = inr "I can't believe you've done this"
   <-> PyStr.split mssg_text = ["stop"] /\ NoSession user db) /\
  (at_most_one_session db ->
   (exists rest, PyStr.split mssg_text = "stop" :: rest /\ InSession user db) ->
   NoSession user (db_after r)).
Proof.
  intros user r. subst r. unfold InSession, NoSession.
  by_branch Hs Hstart Hstop.
  - split; [split | split; [split|]].
    + discriminate.
    + intros (l & H & _); discriminate.
    + discriminate.
    + intros [H _]; discriminate.
    + intros _ (l & H & _); discriminate.
  - assert (Hno : forall reply : string,
               reply <> COMMAND_ERROR ->
               outcome
                 match rest with
                 | [m1; m2] =>
                     if PyStr.isdigit m1 || negb (m2 =? "hours")
                     then start_active_loop (mkUser space_name user_name) m1
                            space_name (resolved user_name space_name db)
                     else (resolved user_name space_name db, inr COMMAND_ERROR)
                 | _ => (resolved user_name space_name db, inr COMMAND_ERROR)
                 end <> inr reply).
    { intros reply Hr.
      destruct rest as [|m1 [|m2 [|m3 rest]]];
        try (intros [= E]; now elim Hr).
      destruct (_ || _); [|intros [= E]; now elim Hr].
      destruct (start_active_loop_raises
                  (mkUser space_name user_name) m1 space_name
                  (resolved user_name space_name db)) as [E|E];
        rewrite E; discriminate. }
    split; [split | split; [split|]].
    + intros H. apply Hno in H; [destruct H | discriminate].
    + intros (l & H & _); discriminate.
    + intros H. apply Hno in H; [destruct H | discriminate].
    + intros [H _]; discriminate.
    + intros _ (l & H & _); discriminate.
  - rewrite end_active_loop_eq, sessions_resolved. fold user.
    destruct (sessions user db) as [|row l] eqn:E; cbn [hd_error truthy].
    + rewrite orb_false_r.
      destruct rest as [|m1 rest]; cbn [length Nat.eqb].
      * split; [split | split; [split|]].
        -- discriminate.
        -- intros (l & _ & H). now elim H.
        -- intros _. split; reflexivity.
        -- reflexivity.
        -- intros _ (l & _ & H). now elim H.
      * split; [split | split; [split|]].
        -- discriminate.
        -- intros (l & _ & H). now elim H.
        -- discriminate.
        -- intros [H _]. discriminate.
        -- intros _ (l & _ & H). now elim H.
    + rewrite orb_true_r. split; [split | split; [split|]].
      * intros _. exists rest. split; [reflexivity | discriminate].
      * reflexivity.
      * discriminate.
      * intros [_ H]. discriminate.
      * intros Hinv _. rewrite db_after_pair.
        apply sessions_delete_found.
        -- rewrite sessions_resolved. apply Hinv.
        -- rewrite sessions_resolved. fold user. now rewrite E.
  - assert (Hne : forall l, tok :: rest <> "stop" :: l).
    { intros l [= H _]. now elim Hstop. }
    split; [split | split; [split|]].
    + destruct (truthy _); discriminate.
    + intros (l & H & _). now elim (Hne l).
    + destruct (truthy _); discriminate.
    + intros [H _]. now elim (Hne []).
    + intros _ (l & H & _). now elim (Hne l).
Qed.

Lemma X13_stop_replies_witness :
  NoSession alice
    (db_after (handle_inbound_message "stop it now" "users/1" "spaces/A"
                 in_session_3)).
Proof.
  apply (X13_stop_replies "stop it now" "users/1" "spaces/A" in_session_3).
  - exact in_session_3_invariant.
  - exists ["it"; "now"]. split; [reflexivity | discriminate].
Defined.

(** X14.  [in_active_loop] only reads.  It returns [False] exactly when
    the table has no row of the user; a row it returns is in the table,
    belongs to the user, and is the user's only row when the user has at
    most one. *)
Theorem X14_in_active_loop_finds_the_users_row user db :
  db_after (in_active_loop user db) = db /\
  (outcome (in_active_loop user db) = inr None <->
   forall row, In row (active_loops db) -> Models.user row <> user) /\
  (forall row,
      outcome (in_active_loop user db) = inr (Some row) ->
      In row (active_loops db) /\ Models.user row = user /\
      ((length (sessions user db) <= 1)%nat -> sessions user db = [row])).
Proof.
  unfold in_active_loop, outcome, db_after. cbn [fst snd].
  fold (sessions user db). split; [reflexivity|]. split.
  - split.
    + intros [= H] row Hin Hu.
      assert (Hs : In row (sessions user db)).
      { apply filter_In. split; [exact Hin | now apply User_eqb_eq]. }
      destruct (sessions user db); [destruct Hs | discriminate].
    + intros H. destruct (sessions user db) as [|row l] eqn:E; [reflexivity|].
      assert (Hs : In row (sessions user db)) by (rewrite E; now left).
      apply filter_In in Hs as [Hin Hu]. apply User_eqb_eq in Hu.
      now elim (H row Hin).
  - intros row [= H].
    destruct (sessions user db) as [|x l] eqn:E; [discriminate|].
    injection H as ->.
    assert (Hs : In row (sessions user db)) by (rewrite E; now left).
    apply filter_In in Hs as [Hin Hu]. apply User_eqb_eq in Hu.
    repeat split; auto.
    cbn [length]. intros Hlen. destruct l; [reflexivity | cbn [length] in Hlen; lia].
Qed.

Lemma X14_in_active_loop_finds_the_users_row_witness :
  In (mkActiveLoops 2 bob 1 (-1)) (active_loops two_sessions) /\
  Models.user (mkActiveLoops 2 bob 1 (-1)) = bob /\
  ((length (sessions bob two_sessions) <= 1)%nat ->
   sessions bob two_sessions = [mkActiveLoops 2 bob 1 (-1)]).
Proof.
  apply (X14_in_active_loop_finds_the_users_row bob two_sessions).
  reflexivity.
Defined.

(** ** The databases the dispatcher builds *)

Lemma resolved_users user_name space_name db :
  In (mkUser space_name user_name) (users (resolved user_name space_name db)) /\
  (forall u, In u (users db) -> In u (users (resolved user_name space_name db))) /\
  (NoDup (users db) -> NoDup (users (resolved user_name space_name db))).
Proof.
  unfold resolved, ORM.get_or_create.
  destruct (existsb _ (users db)) eqn:E; cbn [db_after fst users].
  - apply existsb_User_eqb in E. auto.
  - split; [apply in_or_app; right; now left|].
    split; [intros u Hu; apply in_or_app; now left|].
    intros Hnd.
    rewrite <- (rev_involutive (users db ++ [mkUser space_name user_name])).
    apply NoDup_rev. rewrite rev_app_distr. cbn [rev app].
    apply NoDup_cons; [|now apply NoDup_rev].
    rewrite <- in_rev. intros H. apply existsb_User_eqb in H. congruence.
Qed.

(** A row in the table after a call was there before, or is the row the
    call saved for the sender, with the countdown opposite to the
    frequency. *)
Lemma handle_rows mssg_text user_name space_name db row :
  In row (active_loops
            (db_after (handle_inbound_message mssg_text user_name space_name db))) ->
  In row (active_loops db) \/
  (user row = mkUser space_name user_name /\
   mins_to_mssg row = (- mssg_freq row)%Z).
Proof.
  destruct (resolved_tables user_name space_name db) as (Hal & _ & _).
  rewrite <- Hal.
  by_branch Hs Hstart Hstop.
  - auto.
  - destruct rest as [|m1 [|m2 [|m3 rest]]]; auto.
    destruct (_ || _); auto.
    rewrite start_active_loop_eq.
    destruct (PyStr.int m1) as [e|n]; rewrite db_after_pair.
    + intros H. left. eapply cleared_rows, H.
    + cbn [db_after fst ORM.save active_loops]. intros H.
      apply in_app_or in H as [H|[<-|[]]].
      * left. eapply cleared_rows, H.
      * right. cbn [user mssg_freq mins_to_mssg]. split; [reflexivity | lia].
  - destruct (_ || _); auto.
    rewrite end_active_loop_eq.
    destruct (hd_error _); rewrite db_after_pair; auto.
    cbn [db_after fst ORM.delete active_loops]. intros H.
    apply filter_In in H. tauto.
  - destruct (truthy _); auto.
Qed.

Lemma handle_responses mssg_text user_name space_name db :
  user_responses
    (db_after (handle_inbound_message mssg_text user_name space_name db)) =
  user_responses db.
Proof.
  destruct (resolved_tables user_name space_name db) as (_ & Hr & _).
  rewrite <- Hr.
  by_branch Hs Hstart Hstop.
  - reflexivity.
  - destruct rest as [|m1 [|m2 [|m3 rest]]]; try reflexivity.
    destruct (_ || _); [|reflexivity].
    rewrite start_active_loop_eq.
    destruct (cleared_tables (mkUser space_name user_name)
                (resolved user_name space_name db)) as (_ & Hc & _).
    destruct (PyStr.int m1); rewrite db_after_pair; exact Hc.
  - destruct (_ || _); [|reflexivity].
    rewrite end_active_loop_eq. destruct (hd_error _); reflexivity.
  - destruct (truthy _); reflexivity.
Qed.

(** X15.  Every database the dispatcher can build from the empty one,
    by any sequence of messages from any users, is well formed: each user
    has at most one session; primary keys are unique and below the
    counter; no user is registered twice; every session belongs to a
    registered user and has its countdown opposite to its frequency; and
    the table of responses is still empty. *)
Theorem X15_reachable_databases_are_well_formed db :
  reachable db ->
  at_most_one_session db /\
  keys_fresh db /\
  NoDup (users db) /\
  (forall row, In row (active_loops db) ->
               In (user row) (users db) /\
               mins_to_mssg row = (- mssg_freq row)%Z) /\
  user_responses db = [].
Proof.
  induction 1 as [|db t u s Hr (Hone & Hkeys & Hnd & Hrows & Hresp)].
  - split; [intros v; simpl; lia|].
    split; [split; [constructor | intros row []]|].
    split; [constructor|].
    split; [intros row [] | reflexivity].
  - destruct (resolved_users u s db) as (Hin & Hgrow & Hnd').
    split; [now apply handle_keeps_invariant|].
    split; [now apply handle_keeps_keys|].
    split; [rewrite handle_users; now apply Hnd'|].
    split; [|now rewrite handle_responses].
    intros row Hrow. rewrite handle_users.
    apply handle_rows in Hrow as [Hrow|[Hu Hm]].
    + destruct (Hrows row Hrow) as [Ha Hb]. split; [now apply Hgrow | exact Hb].
    + split; [now rewrite Hu | exact Hm].
Qed.

Lemma X15_reachable_databases_are_well_formed_witness :
  at_most_one_session in_session_3 /\
  keys_fresh in_session_3 /\
  NoDup (users in_session_3) /\
  (forall row, In row (active_loops in_session_3) ->
               In (user row) (users in_session_3) /\
               mins_to_mssg row = (- mssg_freq row)%Z) /\
  user_responses in_session_3 = [].
Proof.
  apply (X15_reachable_databases_are_well_formed in_session_3).
  exact in_session_3_reachable.
Defined.
